(** * EmotionDetection: the prediction view of [WebApplication/App/views.py]

    A shallow embedding of [Predict] (constructor, [post], [classtoemotion])
    together with the few NumPy / librosa / Keras / Django operations it
    calls, followed by the properties of the inference pipeline.

    Conventions.
    - Python exceptions are values of [exn]; code that may raise returns
      [result A], and the statements of a [try] block are chained with the
      bind of that monad.
    - The media directory is a finite map from paths to file contents.
      In [post] the file-system calls are taken not to fail; the faults of
      [open] and [write] before the [try] statement are a parameter of
      [handle].
    - The numerical libraries are an interface ([Env]): their floating-point
      internals are not modelled, only the shapes and the control flow the
      view depends on.
    - As written, the module refers to [APIView] and [load_model] without
      importing them; they are read as [rest_framework.views.APIView] and
      [keras.models.load_model]. *)

From stdpp Require Import base option list gmap strings pretty.
From Stdlib Require Import ZArith QArith Lia.

Open Scope string_scope.
Open Scope list_scope.
Open Scope Z_scope.

(** ** Python exceptions and fallible computations *)

Inductive exc_class :=
  | AxisError | ValueError | IndexError | TypeError | NameError
  | FileNotFoundError | LibraryError.

Record exn := Exn { exn_class : exc_class; exn_msg : string }.

(** [str(e)] *)
Definition str (e : exn) : string := exn_msg e.

Inductive result (A : Type) :=
  | OK (a : A)
  | Raise (e : exn).
Arguments OK {A} a.
Arguments Raise {A} e.

#[global] Instance result_ret : MRet result := fun A a => OK a.
#[global] Instance result_bind : MBind result := fun A B f r =>
  match r with
  | OK a => f a
  | Raise e => Raise e
  end.

Definition is_OK {A} (r : result A) : bool :=
  match r with OK _ => true | Raise _ => false end.

(** ** Scalars

    The element type of the arrays.  [fle] is [<=] and [fisnan] the NaN
    test; nothing else of IEEE arithmetic is used by the view. *)

Class Scalar (F : Type) := {
  fzero : F;
  fadd : F -> F -> F;
  fdiv_count : F -> nat -> F;
  fle : F -> F -> bool;
  fisnan : F -> bool
}.

(** The ordering laws that hold for the numbers that are not NaN. *)
Class ScalarOrder (F : Type) `{Scalar F} := {
  fle_total : forall x y : F,
    fisnan x = false -> fisnan y = false -> fle x y = true \/ fle y x = true;
  fle_trans : forall x y z : F,
    fle x y = true -> fle y z = true -> fle x z = true
}.

(** Rationals with a NaN: the scalar used for the executable examples. *)
Inductive qfloat := QNum (q : Q) | QNaN.

Definition qf_add (x y : qfloat) : qfloat :=
  match x, y with
  | QNum a, QNum b => QNum (a + b)%Q
  | _, _ => QNaN
  end.

Definition qf_div_count (x : qfloat) (n : nat) : qfloat :=
  match x, n with
  | QNum a, S _ => QNum (a / inject_Z (Z.of_nat n))%Q
  | _, _ => QNaN
  end.

Definition qf_le (x y : qfloat) : bool :=
  match x, y with
  | QNum a, QNum b => Qle_bool a b
  | _, _ => false
  end.

Definition qf_isnan (x : qfloat) : bool :=
  match x with QNaN => true | QNum _ => false end.

#[global] Instance qfloat_scalar : Scalar qfloat := {|
  fzero := QNum 0%Q;
  fadd := qf_add;
  fdiv_count := qf_div_count;
  fle := qf_le;
  fisnan := qf_isnan
|}.

#[global] Instance qfloat_order : ScalarOrder qfloat.
Proof.
  split.
  - intros [a|] [b|]; simpl; try discriminate. intros _ _.
    destruct (Qlt_le_dec a b) as [Hlt|Hle].
    + left. apply Qle_bool_iff. by apply Qlt_le_weak.
    + right. by apply Qle_bool_iff.
  - intros [a|] [b|] [c|]; simpl; try discriminate.
    rewrite !Qle_bool_iff. apply Qle_trans.
Qed.

(** ** NumPy arrays and the operations the view calls *)

Section Numpy.
Context {F : Type} `{Scalar F}.

(** A dense array: its shape and its elements in row-major order. *)
Record ndarray := NDArray { shape : list nat; data : list F }.

Definition size_of (s : list nat) : nat := foldr Nat.mul 1%nat s.

Definition wf_ndarray (a : ndarray) : Prop :=
  length (data a) = size_of (shape a).

(** A two-dimensional array, as [librosa.feature.mfcc] returns for a mono
    signal. *)
Record matrix := Matrix { nrows : nat; ncols : nat; mdata : list F }.

Definition mget (m : matrix) (i j : nat) : F :=
  nth (i * ncols m + j)%nat (mdata m) fzero.

(** [m.T] *)
Definition np_T (m : matrix) : matrix :=
  {| nrows := ncols m;
     ncols := nrows m;
     mdata := flat_map (fun j => map (fun i => mget m i j) (seq 0 (nrows m)))
                       (seq 0 (ncols m)) |}.

(** [np.mean(m, axis=0)]: the sum over the rows divided by their number
    (NaN entries, with a warning, when there is no row). *)
Definition np_mean_axis0 (m : matrix) : ndarray :=
  {| shape := [ncols m];
     data := map (fun j =>
               fdiv_count
                 (fold_left fadd (map (fun i => mget m i j) (seq 0 (nrows m))) fzero)
                 (nrows m))
             (seq 0 (ncols m)) |}.

(** Python's clamping of a slice bound [i] into a sequence of length [n]. *)
Definition py_slice_bound (n : nat) (i : Z) : nat :=
  if i <? 0 then Z.to_nat (Z.max 0 (Z.of_nat n + i))
  else Nat.min n (Z.to_nat i).

(** [shape[:i] + (1,) + shape[i:]] *)
Definition insert_unit_axis (s : list nat) (i : Z) : list nat :=
  take (py_slice_bound (length s) i) s ++ 1%nat :: drop (py_slice_bound (length s) i) s.

(** [AxisError(axis, ndim)] *)
Definition axis_error (axis ndim : Z) : exn :=
  Exn AxisError ("axis " +:+ pretty axis
                 +:+ " is out of bounds for array of dimension " +:+ pretty ndim).

(** [np.expand_dims(a, axis)].

    The axis has to lie in [[-ndim-1, ndim]].  From NumPy 1.18 on anything
    else raises [AxisError]; NumPy 1.13 to 1.17 only warned
    (DeprecationWarning) and went on with the slice expression above.
    [legacy_axis] selects the old behaviour. *)
Definition np_expand_dims (legacy_axis : bool) (a : ndarray) (axis : Z)
  : result ndarray :=
  let ndim := Z.of_nat (length (shape a)) in
  if (axis >? ndim) || (axis <? - ndim - 1) then
    if legacy_axis then
      let axis' := if axis <? 0 then axis + ndim + 1 else axis in
      OK {| shape := insert_unit_axis (shape a) axis'; data := data a |}
    else
      Raise (axis_error axis (ndim + 1))
  else
    let axis' := if axis <? 0 then axis + ndim + 1 else axis in
    OK {| shape := insert_unit_axis (shape a) axis'; data := data a |}.

(** The scan of [np.argmax] over one row of floating-point numbers: the
    running maximum [mp] is replaced when [not (x <= mp)], and a NaN ends
    the scan as the maximum. *)
Fixpoint argmax_scan (mp : F) (best i : nat) (l : list F) : nat :=
  match l with
  | [] => best
  | x :: l' =>
      if fle x mp then argmax_scan mp best (S i) l'
      else if fisnan x then i
      else argmax_scan x i (S i) l'
  end.

Definition np_argmax_row (l : list F) : option nat :=
  match l with
  | [] => None
  | x :: l' => Some (if fisnan x then 0%nat else argmax_scan x 0 1 l')
  end.

(** What [np.argmax(preds, axis=1)[0]] evaluates to: a NumPy integer, or
    again an array when [preds] has more than two axes. *)
Inductive argmax_item :=
  | Index (k : Z)
  | SubArray.

(** [np.argmax(preds, axis=1)[0]] *)
Definition np_argmax_axis1_item0 (preds : ndarray) : result argmax_item :=
  match shape preds with
  | [] | [_] => Raise (axis_error 1 (Z.of_nat (length (shape preds))))
  | b :: w :: rest =>
      if (w =? 0)%nat then
        Raise (Exn ValueError "attempt to get argmax of an empty sequence")
      else if (b =? 0)%nat then
        Raise (Exn IndexError "index 0 is out of bounds for axis 0 with size 0")
      else
        match rest with
        | [] =>
            match np_argmax_row (take w (data preds)) with
            | Some k => OK (Index (Z.of_nat k))
            | None => Raise (Exn ValueError "attempt to get argmax of an empty sequence")
            end
        | _ :: _ => OK SubArray
        end
  end.
End Numpy.

Arguments ndarray F : clear implicits.
Arguments matrix F : clear implicits.

(** ** The label table *)

(** [label_map] of [Predict.classtoemotion] *)
Definition label_map : gmap Z string :=
  <[0 := "neutral"]> (<[1 := "calm"]> (<[2 := "happy"]> (<[3 := "sad"]>
  (<[4 := "angry"]> (<[5 := "fearful"]> (<[6 := "disgust"]>
  (<[7 := "surprised"]> ∅))))))).

(** [Predict.classtoemotion]: [label_map.get(pred, 'unknown')] *)
Definition classtoemotion (pred : Z) : string :=
  default "unknown" (label_map !! pred).

(** The table as the specification words it: a total function on the
    integers. *)
Definition classify_spec (index : Z) : string :=
  match index with
  | 0 => "neutral"
  | 1 => "calm"
  | 2 => "happy"
  | 3 => "sad"
  | 4 => "angry"
  | 5 => "fearful"
  | 6 => "disgust"
  | 7 => "surprised"
  | _ => "unknown"
  end.

(** The fixed set of eight emotion labels. *)
Definition emotion_labels : list string :=
  ["neutral"; "calm"; "happy"; "sad"; "angry"; "fearful"; "disgust"; "surprised"].

(** ** Paths and the file store *)

(** [posixpath.join(a, b)] *)
Definition ends_with_sep (s : string) : bool :=
  match String.length s with
  | O => false
  | S n => String.eqb (String.substring n 1 s) "/"
  end.

Definition os_path_join (a b : string) : string :=
  if String.prefix "/" b then b
  else if (String.length a =? 0)%nat || ends_with_sep a then a +:+ b
  else a +:+ "/" +:+ b.

(** ** The libraries behind the view

    Settings, librosa, Keras and the NumPy generation in use.  [sr = None] is
    librosa's [sr=None]: keep the sample rate of the file. *)

Class Env := {
  sample : Type;
  sample_scalar :: Scalar sample;
  MEDIA_ROOT : string;
  MODEL_ROOT : string;
  numpy_legacy_axis : bool;
  (** [librosa.load(path, sr=sr)] on a file with the given content *)
  librosa_load : string -> list Byte.byte -> option Z -> result (list sample * Z);
  (** [librosa.feature.mfcc(y=y, sr=sr, n_mfcc=n)] *)
  librosa_feature_mfcc : list sample -> Z -> nat -> result (matrix sample);
  Model : Type;
  (** what calling the name [load_model] on a path does, [None] standing
      for a path without a file: [keras.models.load_model] once the module
      imports it; as the module stands the name is bound nowhere and the
      call raises [NameError] *)
  load_model : string -> option (list Byte.byte) -> result Model;
  (** [model.predict(x)] *)
  model_predict : Model -> ndarray sample -> result (ndarray sample);
  (** a file of zero bytes is no audio file *)
  librosa_load_empty : forall path sr, is_OK (librosa_load path [] sr) = false;
  (** the coefficient matrix has [n_mfcc] rows, one column per frame *)
  librosa_mfcc_shape : forall y sr n m,
    librosa_feature_mfcc y sr n = OK m ->
    nrows m = n /\ length (mdata m) = (n * ncols m)%nat;
  model_predict_wf : forall m x a, model_predict m x = OK a -> wf_ndarray a
}.

(** ** HTTP *)

Record Response := { body : gmap string string; status : Z }.

Definition HTTP_200_OK : Z := 200.
Definition HTTP_400_BAD_REQUEST : Z := 400.

(** An uploaded file: its name and the chunks [chunks()] yields. *)
Record UploadedFile := { name : string; chunks : list (list Byte.byte) }.

(** Truth value of an uploaded file in a condition: [bool(self.name)]. *)
Definition file_truthy (f : UploadedFile) : bool :=
  negb (String.length (name f) =? 0)%nat.

(** The bytes a loop of [write(chunk)] over [chunks()] leaves in a file
    opened with mode [wb+]. *)
Definition upload_bytes (f : UploadedFile) : list Byte.byte :=
  fold_left (fun written chunk => written ++ chunk) (chunks f) [].

(** ** The view *)

Section View.
Context {E : Env}.

(** An instance of [Predict]: [self.model] *)
Record Predict := { model : Model }.

Definition model_path : string :=
  os_path_join MODEL_ROOT "Emotion_Voice_Detection_Model.h5".

(** [Predict.__init__] *)
Definition Predict_init (fs : gmap string (list Byte.byte)) : result Predict :=
  m ← load_model model_path (fs !! model_path);
  mret {| model := m |}.

Definition tmp_path_of (f : UploadedFile) : string :=
  os_path_join MEDIA_ROOT (name f).

(** The [with open(tmp_path, 'wb+')] block: the file is created or
    truncated and the chunks are written one after the other. *)
Definition save_upload (fs : gmap string (list Byte.byte)) (f : UploadedFile)
  : gmap string (list Byte.byte) :=
  <[tmp_path_of f := upload_bytes f]> fs.

(** [librosa.load(tmp_path, sr=None)] against the file store *)
Definition load_audio (fs : gmap string (list Byte.byte)) (path : string)
  : result (list sample * Z) :=
  match fs !! path with
  | Some bytes => librosa_load path bytes None
  | None => Raise (Exn FileNotFoundError "No such file or directory")
  end.

(** Lines 234-235: decode and average the MFCC matrix over time. *)
Definition mean_mfcc (fs : gmap string (list Byte.byte)) (path : string)
  : result (ndarray sample) :=
  '(data, sampling_rate) ← load_audio fs path;
  coeffs ← librosa_feature_mfcc data sampling_rate 40;
  mret (np_mean_axis0 (np_T coeffs)).

(** Lines 234-237: the feature tensor handed to the model. *)
Definition extract (fs : gmap string (list Byte.byte)) (path : string)
  : result (ndarray sample) :=
  mfccs ← mean_mfcc fs path;
  features ← np_expand_dims numpy_legacy_axis mfccs 2;
  np_expand_dims numpy_legacy_axis features 0.

(** [self.classtoemotion(predicted_class)]: the dictionary lookup hashes
    its key, which an array does not support. *)
Definition lookup_label (predicted_class : argmax_item) : result string :=
  match predicted_class with
  | Index k => OK (classtoemotion k)
  | SubArray => Raise (Exn TypeError "unhashable type: 'numpy.ndarray'")
  end.

(** Lines 238-240: forward pass, arg-max, label. *)
Definition predict_label (self : Predict) (features : ndarray sample)
  : result string :=
  preds ← model_predict (model self) features;
  predicted_class ← np_argmax_axis1_item0 preds;
  lookup_label predicted_class.

(** The body of the [try] statement. *)
Definition try_block (self : Predict) (fs : gmap string (list Byte.byte))
    (tmp_path : string) : result string :=
  features ← extract fs tmp_path;
  predict_label self features.

(** The [finally] clause. *)
Definition cleanup (fs : gmap string (list Byte.byte)) (tmp_path : string)
  : gmap string (list Byte.byte) :=
  if decide (is_Some (fs !! tmp_path)) then delete tmp_path fs else fs.

Definition error_response (message : string) : Response :=
  {| body := {[ "error" := message ]}; status := HTTP_400_BAD_REQUEST |}.

Definition prediction_response (label : string) : Response :=
  {| body := {[ "prediction" := label ]}; status := HTTP_200_OK |}.

(** [Predict.post]; [audio_file] is [request.FILES.get('file', None)]. *)
Definition post (self : Predict) (fs : gmap string (list Byte.byte))
    (audio_file : option UploadedFile) : gmap string (list Byte.byte) * Response :=
  match audio_file with
  | None => (fs, error_response "No audio file provided")
  | Some f =>
      if negb (file_truthy f) then (fs, error_response "No audio file provided")
      else
        let tmp_path := tmp_path_of f in
        let fs1 := save_upload fs f in
        let outcome := try_block self fs1 tmp_path in
        let fs2 := cleanup fs1 tmp_path in
        match outcome with
        | OK emotion_label => (fs2, prediction_response emotion_label)
        | Raise e => (fs2, error_response (str e))
        end
  end.

(** ** The process serving requests

    Django builds a fresh view object for every request it routes to a
    class-based view, so the constructor runs per request.  [load_trace]
    records each execution of line 220, the load statement of the
    constructor, and whether it returned. *)

Record process := {
  files : gmap string (list Byte.byte);
  load_trace : list bool
}.

(** The construction of a [Predict] in a process: the constructor executes its load
    statement, which the trace records, and yields the instance or the
    exception of the load. *)
Definition construct (p : process) : process * result Predict :=
  let made := Predict_init (files p) in
  ({| files := files p; load_trace := load_trace p ++ [is_OK made] |}, made).

(** One request through [Predict.as_view()]: construct, then [post].  An
    exception of the constructor leaves the view. *)
Definition as_view (p : process) (audio_file : option UploadedFile)
  : process * result Response :=
  let '(p1, made) := construct p in
  match made with
  | Raise e => (p1, Raise e)
  | OK self =>
      let '(fs', response) := post self (files p1) audio_file in
      ({| files := fs'; load_trace := load_trace p1 |}, OK response)
  end.

Fixpoint serve (p : process) (requests : list (option UploadedFile))
  : process * list (result Response) :=
  match requests with
  | [] => (p, [])
  | r :: rest =>
      let '(p1, out) := as_view p r in
      let '(p2, outs) := serve p1 rest in
      (p2, out :: outs)
  end.

(** ** Faults before the [try] statement

    Lines 228 to 231 run outside the [try]: an [OSError] of [open] or of
    [write] leaves [post].  [staging_fault f] is what the operating system
    does to the copy of upload [f]: [None] when it is written, and
    [Some (e, left)] when [e] is raised, [left] being what is then found at
    the temporary path, nothing new when [open] was refused and the bytes
    written so far otherwise. *)
Definition post_or_fault
    (staging_fault : UploadedFile -> option (exn * option (list Byte.byte)))
    (self : Predict) (fs : gmap string (list Byte.byte))
    (audio_file : option UploadedFile)
  : gmap string (list Byte.byte) * result Response :=
  match audio_file with
  | Some f =>
      match (if file_truthy f then staging_fault f else None) with
      | Some (e, Some written) => (<[tmp_path_of f := written]> fs, Raise e)
      | Some (e, None) => (fs, Raise e)
      | None => (fst (post self fs audio_file), OK (snd (post self fs audio_file)))
      end
  | None => (fst (post self fs audio_file), OK (snd (post self fs audio_file)))
  end.

(** One request through the view with such faults. *)
Definition handle
    (staging_fault : UploadedFile -> option (exn * option (list Byte.byte)))
    (p : process) (audio_file : option UploadedFile)
  : process * result Response :=
  let '(p1, made) := construct p in
  match made with
  | Raise e => (p1, Raise e)
  | OK self =>
      let '(fs', out) := post_or_fault staging_fault self (files p1) audio_file in
      ({| files := fs'; load_trace := load_trace p1 |}, out)
  end.
End View.

(** ** The vocabulary of the specification *)

(** The error taxonomy of the specification. *)
Inductive error_kind :=
  | DecodeError | EmptySignalError | ModelLoadError | InferenceError.

Definition is_client_error (s : Z) : bool := (400 <=? s) && (s <? 500).
Definition is_server_error (s : Z) : bool := (500 <=? s) && (s <? 600).

(** The status class the specification assigns to each kind: malformed
    input is the client's error, model and infrastructure failures are the
    server's. *)
Definition spec_status_class (kind : error_kind) (s : Z) : bool :=
  match kind with
  | DecodeError | EmptySignalError => is_client_error s
  | ModelLoadError | InferenceError => is_server_error s
  end.

Section Claims.
Context {E : Env}.

(** The kind of a failure of the [try] block, by the statement that
    raises: the decoder, the feature extractor refusing a signal without
    samples, or the forward pass.  [None] for a run that does not fail in
    one of these ways. *)
Definition failure_kind (self : Predict) (fs : gmap string (list Byte.byte))
    (path : string) : option (error_kind * exn) :=
  match load_audio fs path with
  | Raise e => Some (DecodeError, e)
  | OK (y, sr) =>
      match librosa_feature_mfcc y sr 40 with
      | Raise e => if (length y =? 0)%nat then Some (EmptySignalError, e) else None
      | OK _ =>
          match extract fs path with
          | Raise _ => None
          | OK features =>
              match model_predict (model self) features with
              | Raise e => Some (InferenceError, e)
              | OK _ => None
              end
          end
      end
  end.

(** The upload is empty, or it decodes to a signal without samples. *)
Definition no_samples (fs : gmap string (list Byte.byte)) (f : UploadedFile) : Prop :=
  upload_bytes f = []
  \/ exists sr, load_audio (save_upload fs f) (tmp_path_of f) = OK ([], sr).
End Claims.

(** The sentence of the specification on empty input, as stated: such a
    request ends in the error response of a decode or empty-signal error. *)
Definition empty_input_claim : Prop :=
  forall (E : Env) (self : Predict) (fs : gmap string (list Byte.byte))
         (f : UploadedFile),
    file_truthy f = true -> no_samples fs f ->
    exists kind e,
      (kind = DecodeError \/ kind = EmptySignalError)
      /\ failure_kind self (save_upload fs f) (tmp_path_of f) = Some (kind, e)
      /\ snd (post self fs (Some f)) = error_response (str e).



(** The sentence of the specification on status classes, as stated: the
    status of a failure response is the class of its error kind. *)
Definition status_by_kind_claim : Prop :=
  forall (E : Env) (self : Predict) (fs : gmap string (list Byte.byte))
         (f : UploadedFile) (kind : error_kind) (e : exn),
    file_truthy f = true ->
    failure_kind self (save_upload fs f) (tmp_path_of f) = Some (kind, e) ->
    spec_status_class kind (status (snd (post self fs (Some f)))) = true.

(** ** A small concrete environment

    Enough of a decoder, a feature extractor and a classifier to run the
    view: a file is a header byte followed by one byte per sample, the
    coefficient matrix has one column per two samples (and one more), and
    the artifact's first byte says which classifier it holds. *)

Module Toy.
Import Byte.

Inductive toy_model := GoodModel | WideModel | BrokenModel.

Definition toy_load (path : string) (bytes : list byte) (sr : option Z)
  : result (list qfloat * Z) :=
  match bytes with
  | [] => Raise (Exn LibraryError "Format not recognised")
  | _ :: frames =>
      OK (map (fun b => QNum (inject_Z (Z.of_N (Byte.to_N b)))) frames,
          default 8000 sr)
  end.

(** [accepts_empty = false] is a feature extractor that rejects a signal
    without samples (reflect padding of an empty array); [true] is one that
    pads it with zeros and goes on. *)
Definition toy_mfcc (accepts_empty : bool) (y : list qfloat) (sr : Z) (n : nat)
  : result (matrix qfloat) :=
  if negb accepts_empty && (length y =? 0)%nat then
    Raise (Exn ValueError "can't extend empty axis 0 using modes other than 'constant' or 'empty'")
  else
    let frames := (1 + length y / 2)%nat in
    OK {| nrows := n; ncols := frames; mdata := repeat (QNum 1%Q) (n * frames) |}.

Definition toy_load_model (path : string) (artifact : option (list byte))
  : result toy_model :=
  match artifact with
  | None => Raise (Exn FileNotFoundError "No file or directory found")
  | Some (x01 :: _) => OK GoodModel
  | Some (x02 :: _) => OK WideModel
  | Some (x03 :: _) => OK BrokenModel
  | Some _ => Raise (Exn LibraryError "file signature not found")
  end.

Definition scores8 : list qfloat :=
  [QNum (1#10); QNum (1#10); QNum (3#10); QNum (3#10);
   QNum (1#10); QNum (1#20); QNum (1#20); QNum 0]%Q.

Definition scores10 : list qfloat :=
  [QNum 0; QNum 0; QNum 0; QNum 0; QNum 0;
   QNum 0; QNum 0; QNum 0; QNum (1#2); QNum (1#2)]%Q.

Definition toy_predict (m : toy_model) (x : ndarray qfloat)
  : result (ndarray qfloat) :=
  match m with
  | BrokenModel => Raise (Exn LibraryError "forward pass failed")
  | GoodModel =>
      if decide (shape x = [1; 40; 1]%nat)
      then OK {| shape := [1; 8]%nat; data := scores8 |}
      else Raise (Exn ValueError "input is incompatible with the layer")
  | WideModel =>
      if decide (shape x = [1; 40; 1]%nat)
      then OK {| shape := [1; 10]%nat; data := scores10 |}
      else Raise (Exn ValueError "input is incompatible with the layer")
  end.

Lemma toy_load_empty path sr : is_OK (toy_load path [] sr) = false.
Proof. reflexivity. Qed.

Lemma toy_mfcc_shape accepts_empty y sr n m :
  toy_mfcc accepts_empty y sr n = OK m ->
  nrows m = n /\ length (mdata m) = (n * ncols m)%nat.
Proof.
  unfold toy_mfcc. destruct (_ && _); [discriminate|].
  intros [= <-]. simpl. split; [reflexivity | apply repeat_length].
Qed.

Lemma toy_predict_wf m x a : toy_predict m x = OK a -> wf_ndarray a.
Proof.
  destruct m; simpl; try discriminate;
    case_decide; try discriminate; intros [= <-]; reflexivity.
Qed.

Definition env (legacy_axis accepts_empty : bool) : Env := {|
  sample := qfloat;
  MEDIA_ROOT := "/srv/media";
  MODEL_ROOT := "/srv/models";
  numpy_legacy_axis := legacy_axis;
  librosa_load := toy_load;
  librosa_feature_mfcc := toy_mfcc accepts_empty;
  Model := toy_model;
  load_model := toy_load_model;
  model_predict := toy_predict;
  librosa_load_empty := toy_load_empty;
  librosa_mfcc_shape := toy_mfcc_shape accepts_empty;
  model_predict_wf := toy_predict_wf
|}.

(** The name [load_model] as the module leaves it: unbound. *)
Definition unbound_load_model (path : string) (artifact : option (list byte))
  : result toy_model :=
  Raise (Exn NameError "name 'load_model' is not defined").

(** The module as it stands, under NumPy 1.18 or later. *)
Definition shipped : Env := {|
  sample := qfloat;
  MEDIA_ROOT := "/srv/media";
  MODEL_ROOT := "/srv/models";
  numpy_legacy_axis := false;
  librosa_load := toy_load;
  librosa_feature_mfcc := toy_mfcc true;
  Model := toy_model;
  load_model := unbound_load_model;
  model_predict := toy_predict;
  librosa_load_empty := toy_load_empty;
  librosa_mfcc_shape := toy_mfcc_shape true;
  model_predict_wf := toy_predict_wf
|}.

(** NumPy 1.18 or later with a feature extractor that zero-pads. *)
Definition current : Env := env false true.
(** NumPy before 1.18 with a feature extractor that zero-pads. *)
Definition legacy : Env := env true true.
(** NumPy before 1.18 with a feature extractor that rejects no samples. *)
Definition legacy_strict_mfcc : Env := env true false.

Definition model_file : string := "/srv/models/Emotion_Voice_Detection_Model.h5".

Definition disk (artifact : list byte) : gmap string (list byte) :=
  {[ model_file := artifact ]}.

(** A three-sample recording, a header-only recording and an empty file. *)
Definition clip : UploadedFile :=
  {| name := "clip.wav"; chunks := [[x52; x10]; [x20; x30]] |}.
(** [clip] as one chunk. *)
Definition clip_one_chunk : UploadedFile :=
  {| name := "clip.wav"; chunks := [[x52; x10; x20; x30]] |}.
Definition header_only : UploadedFile :=
  {| name := "silent.wav"; chunks := [[x52]] |}.
Definition empty_file : UploadedFile :=
  {| name := "empty.wav"; chunks := [] |}.

Definition good : @Predict current := @Build_Predict current GoodModel.
Definition good_legacy : @Predict legacy := @Build_Predict legacy GoodModel.
Definition wide_legacy : @Predict legacy := @Build_Predict legacy WideModel.
Definition broken_legacy : @Predict legacy := @Build_Predict legacy BrokenModel.

(** The averaged coefficients of [clip]. *)
Definition clip_mean : ndarray qfloat :=
  {| shape := [40%nat]; data := repeat (QNum (2#2)) 40 |}.

(** A process whose artifact holds the given bytes, before any request. *)
Definition fresh (artifact : list byte) : process :=
  {| files := disk artifact; load_trace := [] |}.
Definition no_artifact : process :=
  {| files := ∅; load_trace := [] |}.
End Toy.

(** ** Python strings *)

(** [s.find(sub)]: the index of the first occurrence of [sub] in [s], or
    -1 when there is none. *)
Fixpoint find_from (sub s : string) (i : nat) : Z :=
  if String.prefix sub s then Z.of_nat i
  else match s with
       | EmptyString => -1
       | String _ s' => find_from sub s' (S i)
       end.

Definition py_find (s sub : string) : Z := find_from sub s 0.

(** [s[start:stop]] *)
Definition py_slice (s : string) (start stop : Z) : string :=
  let chars := String.list_ascii_of_string s in
  let lo := py_slice_bound (length chars) start in
  let hi := py_slice_bound (length chars) stop in
  String.string_of_list_ascii (take (hi - lo) (drop lo chars)).

(** ** The other views *)

(** Line 143 of [FileDeleteView.post]: the primary key is what stands
    between the brackets of the posted rendering of a query set,
    [identifier[identifier.find("[") + 1:identifier.find("]")]]. *)
Definition primary_key_of (identifier : string) : string :=
  py_slice identifier (py_find identifier "[" + 1) (py_find identifier "]").

(** [FileView.check_file_exists]:
    [bool(str(os.path.join(settings.MEDIA_ROOT, file_name)))] *)
Definition check_file_exists {E : Env} (file_name : string) : bool :=
  negb (String.length (os_path_join MEDIA_ROOT file_name) =? 0)%nat.

(** * Properties *)

(** ** The label table *)

Lemma classtoemotion_outside (pred : Z) :
  pred < 0 \/ 7 < pred -> classtoemotion pred = "unknown".
Proof.
  intros Hout. unfold classtoemotion, label_map.
  rewrite !lookup_insert_ne by lia. by rewrite lookup_empty.
Qed.

Lemma classify_spec_outside (index : Z) :
  index < 0 \/ 7 < index -> classify_spec index = "unknown".
Proof.
  intros Hout. destruct index as [|p|p]; [lia| |reflexivity].
  destruct p as [[[p|p|]|[p|p|]|]|[[p|p|]|[p|p|]|]|]; try reflexivity; lia.
Qed.

Lemma index_cases (k : Z) :
  0 <= k <= 7 ->
  k = 0 \/ k = 1 \/ k = 2 \/ k = 3 \/ k = 4 \/ k = 5 \/ k = 6 \/ k = 7.
Proof. lia. Qed.

Lemma classtoemotion_inside (k : Z) :
  0 <= k <= 7 ->
  classtoemotion k ∈ emotion_labels /\ classtoemotion k <> "unknown".
Proof.
  intros Hk.
  apply index_cases in Hk.
  destruct Hk as [->|[->|[->|[->|[->|[->|[->| ->]]]]]]];
    (split; [vm_compute; set_solver | vm_compute; discriminate]).
Qed.

(** C1. For every integer the lookup agrees with the literal table
    0 neutral, 1 calm, 2 happy, 3 sad, 4 angry, 5 fearful, 6 disgust,
    7 surprised, and it is the sentinel unknown exactly for the integers
    outside 0..7, negative ones included; being a total function it never
    raises. *)
Theorem classtoemotion_table (pred : Z) :
  classtoemotion pred = classify_spec pred
  /\ (classtoemotion pred = "unknown" <-> (pred < 0 \/ 7 < pred)).
Proof.
  destruct (decide (0 <= pred <= 7)) as [Hin|Hout].
  - split.
    + pose proof (index_cases pred Hin) as Hcases.
      destruct Hcases as [->|[->|[->|[->|[->|[->|[->| ->]]]]]]]; reflexivity.
    + split; [|lia]. intros Hunk.
      destruct (classtoemotion_inside pred Hin) as [_ Hne]. contradiction.
  - assert (pred < 0 \/ 7 < pred) as Hout' by lia. split.
    + by rewrite classtoemotion_outside, classify_spec_outside.
    + split; [done|]. intros _. by apply classtoemotion_outside.
Qed.

(** ** Arg-max *)

Section Argmax.
Context {F : Type} `{!Scalar F}.

Lemma argmax_scan_bound (l : list F) : forall (mp : F) (best i : nat),
  (best < i)%nat -> (argmax_scan mp best i l < i + length l)%nat.
Proof.
  induction l as [|x l IH]; intros mp best i Hlt; simpl; [lia|].
  destruct (fle x mp).
  - specialize (IH mp best (S i)). lia.
  - destruct (fisnan x); [lia|]. specialize (IH x i (S i)). lia.
Qed.

Lemma np_argmax_row_bound (l : list F) (k : nat) :
  np_argmax_row l = Some k -> (k < length l)%nat.
Proof.
  destruct l as [|x l]; simpl; [discriminate|]. intros [= <-].
  destruct (fisnan x); [lia|].
  pose proof (argmax_scan_bound l x 0%nat 1%nat). lia.
Qed.

Lemma np_argmax_row_is_Some (l : list F) :
  (0 < length l)%nat -> is_Some (np_argmax_row l).
Proof. destruct l; simpl; [lia | eauto]. Qed.

(** Selecting a class from a well-formed two-dimensional score array
    yields an index below the width. *)
Lemma np_argmax_axis1_item0_bound (preds : ndarray F) (b w : nat) :
  wf_ndarray preds -> shape preds = [b; w] -> b <> 0%nat -> w <> 0%nat ->
  exists k : nat,
    np_argmax_axis1_item0 preds = OK (Index (Z.of_nat k)) /\ (k < w)%nat.
Proof.
  intros Hwf Hshape Hb Hw. unfold np_argmax_axis1_item0. rewrite Hshape.
  destruct (Nat.eqb_spec w 0); [done|]. destruct (Nat.eqb_spec b 0); [done|].
  assert (length (take w (data preds)) = w) as Hlen.
  { rewrite length_take. unfold wf_ndarray in Hwf. rewrite Hwf, Hshape.
    simpl. nia. }
  destruct (np_argmax_row (take w (data preds))) as [k|] eqn:Hrow.
  - exists k. split; [done|]. apply np_argmax_row_bound in Hrow. lia.
  - destruct (np_argmax_row_is_Some (take w (data preds))) as [k Hk]; [lia|].
    congruence.
Qed.

Context `{!ScalarOrder F}.

Lemma fle_refl (x : F) : fisnan x = false -> fle x x = true.
Proof. intros Hx. by destruct (fle_total x x Hx Hx). Qed.

(** The scan keeps the first position of the largest number seen. *)
Lemma argmax_scan_spec (l : list F) : forall (pre : list F) (mp : F) (best : nat),
  pre !! best = Some mp ->
  Forall (fun y => fisnan y = false) (pre ++ l) ->
  Forall (fun y => fle y mp = true) pre ->
  (forall j y, (j < best)%nat -> pre !! j = Some y -> fle mp y = false) ->
  exists x,
    (pre ++ l) !! argmax_scan mp best (length pre) l = Some x
    /\ Forall (fun y => fle y x = true) (pre ++ l)
    /\ (forall j y, (j < argmax_scan mp best (length pre) l)%nat ->
          (pre ++ l) !! j = Some y -> fle x y = false).
Proof.
  induction l as [|x l IH]; intros pre mp best Hbest Hnan Hmax Hfirst; simpl.
  - rewrite app_nil_r. eauto.
  - assert (pre ++ x :: l = (pre ++ [x]) ++ l) as Hsplit by by rewrite <- app_assoc.
    assert (S (length pre) = length (pre ++ [x])) as Hlen
      by (rewrite length_app; simpl; lia).
    assert (fisnan x = false) as Hx.
    { rewrite Forall_app, Forall_cons in Hnan. tauto. }
    assert (fisnan mp = false) as Hmp.
    { rewrite Forall_app in Hnan. destruct Hnan as [Hpre _].
      rewrite Forall_forall in Hpre. apply Hpre.
      by apply list_elem_of_lookup_2 in Hbest. }
    pose proof (lookup_lt_Some _ _ _ Hbest) as Hbest_lt.
    rewrite Hsplit, Hlen. destruct (fle x mp) eqn:Hle.
    + apply IH.
      * by rewrite lookup_app_l.
      * by rewrite <- Hsplit.
      * rewrite Forall_app. split; [done|]. by constructor.
      * intros j y Hj Hjy. rewrite lookup_app_l in Hjy by lia. eauto.
    + rewrite Hx. apply (IH (pre ++ [x]) x (length pre)).
      * by rewrite lookup_app_r, Nat.sub_diag.
      * by rewrite <- Hsplit.
      * assert (fle mp x = true) as Hlt.
        { destruct (fle_total x mp Hx Hmp); congruence. }
        rewrite Forall_app. split.
        -- eapply Forall_impl; [exact Hmax|]. simpl. intros y Hy.
           by apply (fle_trans y mp x).
        -- constructor; [by apply fle_refl | constructor].
      * intros j y Hj Hjy. rewrite lookup_app_l in Hjy by lia.
        destruct (fle x y) eqn:Hxy; [|done].
        rewrite Forall_forall in Hmax.
        apply list_elem_of_lookup_2 in Hjy.
        pose proof (fle_trans x y mp Hxy (Hmax y Hjy)). congruence.
Qed.

Lemma np_argmax_row_spec (row : list F) :
  (0 < length row)%nat ->
  Forall (fun y => fisnan y = false) row ->
  exists k x,
    np_argmax_row row = Some k /\ row !! k = Some x
    /\ Forall (fun y => fle y x = true) row
    /\ (forall j y, (j < k)%nat -> row !! j = Some y -> fle x y = false).
Proof.
  destruct row as [|x0 l]; simpl; [lia|]. intros _ Hnan.
  assert (fisnan x0 = false) as Hx0 by by inversion Hnan.
  rewrite Hx0.
  destruct (argmax_scan_spec l [x0] x0 0%nat) as (x & Hk & Hmax & Hfirst);
    simpl; try done.
  - constructor; [by apply fle_refl | constructor].
  - intros; lia.
  - simpl in *. eauto 10.
Qed.

(** C4. When several classes share the maximal score, class selection
    returns the lowest of their indices: the selected index [k] holds a
    score tied with the maximum [m], it is not above any index [i] holding
    the maximum, and every score before it is strictly smaller. *)
Theorem argmax_ties_lowest_index (preds : ndarray F) (b w i : nat) (m : F) :
  shape preds = [b; w] -> b <> 0%nat ->
  Forall (fun y => fisnan y = false) (take w (data preds)) ->
  take w (data preds) !! i = Some m ->
  Forall (fun y => fle y m = true) (take w (data preds)) ->
  exists (k : nat) (x : F),
    np_argmax_axis1_item0 preds = OK (Index (Z.of_nat k))
    /\ take w (data preds) !! k = Some x
    /\ fle m x = true /\ fle x m = true
    /\ (k <= i)%nat
    /\ (forall j y, (j < k)%nat -> take w (data preds) !! j = Some y ->
          fle m y = false).
Proof.
  intros Hshape Hb Hnan Hi Hmax.
  pose proof (lookup_lt_Some _ _ _ Hi) as Hlen.
  assert (w <> 0%nat) as Hw by (intros ->; simpl in Hlen; lia).
  destruct (np_argmax_row_spec (take w (data preds)))
    as (k & x & Hrow & Hk & Hxmax & Hfirst); [lia | done |].
  assert (fle x m = true) as Hxm.
  { rewrite Forall_forall in Hmax. apply Hmax.
    by apply list_elem_of_lookup_2 in Hk. }
  assert (fle m x = true) as Hmx.
  { rewrite Forall_forall in Hxmax. apply Hxmax.
    by apply list_elem_of_lookup_2 in Hi. }
  exists k, x. unfold np_argmax_axis1_item0. rewrite Hshape.
  destruct (Nat.eqb_spec w 0); [done|]. destruct (Nat.eqb_spec b 0); [done|].
  rewrite Hrow. repeat split; try done.
  - destruct (decide (k <= i)%nat) as [|Hlt]; [done|].
    assert (fle x m = false) by (apply (Hfirst i m); [lia | done]).
    congruence.
  - intros j y Hj Hjy. destruct (fle m y) eqn:Hmy; [|done].
    pose proof (fle_trans x m y Hxm Hmy).
    pose proof (Hfirst j y Hj Hjy). congruence.
Qed.
End Argmax.

(** The theorem at a row where classes 2 and 3 tie for the maximum. *)
Lemma argmax_ties_lowest_index_witness :
  exists (k : nat) (x : qfloat),
    np_argmax_axis1_item0 {| shape := [1; 8]%nat; data := Toy.scores8 |}
      = OK (Index (Z.of_nat k))
    /\ take 8 Toy.scores8 !! k = Some x
    /\ fle (QNum (3#10)) x = true /\ fle x (QNum (3#10)) = true
    /\ (k <= 3)%nat
    /\ (forall j y, (j < k)%nat -> take 8 Toy.scores8 !! j = Some y ->
          fle (QNum (3#10)) y = false).
Proof.
  apply (argmax_ties_lowest_index
           {| shape := [1; 8]%nat; data := Toy.scores8 |} 1 8 3 (QNum (3#10))).
  - reflexivity.
  - lia.
  - repeat constructor.
  - reflexivity.
  - repeat constructor.
Defined.

Example argmax_tie_at_2 :
  np_argmax_axis1_item0 {| shape := [1; 8]%nat; data := Toy.scores8 |}
  = OK (Index 2).
Proof. reflexivity. Qed.

Example argmax_nan_wins :
  np_argmax_row [QNum 1; QNaN; QNum 3]%Q = Some 1%nat.
Proof. reflexivity. Qed.

(** ** Prediction *)

Section Prediction.
Context {E : Env}.

(** C3. Whatever the feature tensor, when the forward pass returns a
    score array of width exactly 8 the label computed from it is one of
    the eight emotion labels and is not the sentinel unknown. *)
Theorem predict_label_in_label_set
    (self : Predict) (features preds : ndarray sample) (b : nat) :
  model_predict (model self) features = OK preds ->
  shape preds = [b; 8%nat] -> b <> 0%nat ->
  exists label : string,
    predict_label self features = OK label
    /\ label ∈ emotion_labels /\ label <> "unknown".
Proof.
  intros Hpreds Hshape Hb.
  pose proof (model_predict_wf _ _ _ Hpreds) as Hwf.
  destruct (np_argmax_axis1_item0_bound preds b 8 Hwf Hshape Hb)
    as (k & Hk & Hlt); [lia|].
  exists (classtoemotion (Z.of_nat k)).
  unfold predict_label. rewrite Hpreds. cbn. rewrite Hk. cbn.
  split; [done|]. apply classtoemotion_inside. lia.
Qed.
End Prediction.

Lemma predict_label_in_label_set_witness :
  exists label : string,
    @predict_label Toy.legacy (@Build_Predict Toy.legacy Toy.GoodModel)
      {| shape := [1; 40; 1]%nat; data := repeat (QNum 1%Q) 40 |} = OK label
    /\ label ∈ emotion_labels /\ label <> "unknown".
Proof.
  apply (@predict_label_in_label_set Toy.legacy
           (@Build_Predict Toy.legacy Toy.GoodModel)
           {| shape := [1; 40; 1]%nat; data := repeat (QNum 1%Q) 40 |}
           {| shape := [1; 8]%nat; data := Toy.scores8 |} 1).
  - reflexivity.
  - reflexivity.
  - lia.
Defined.

(** ** The request pipeline *)

Section Pipeline.
Context {E : Env}.
Implicit Types (fs : gmap string (list Byte.byte)) (f : UploadedFile).

(** What is decoded is what was uploaded, whatever the store held. *)
Lemma load_audio_saved fs f :
  load_audio (save_upload fs f) (tmp_path_of f)
  = librosa_load (tmp_path_of f) (upload_bytes f) None.
Proof. unfold load_audio, save_upload. by rewrite lookup_insert_eq. Qed.

Lemma cleanup_saved fs f :
  cleanup (save_upload fs f) (tmp_path_of f) = delete (tmp_path_of f) fs.
Proof.
  unfold cleanup, save_upload. rewrite lookup_insert_eq.
  case_decide as Hsome; [apply delete_insert_eq|].
  exfalso. apply Hsome. eauto.
Qed.

(** [post] on a request that carries a file. *)
Lemma post_with_file (self : Predict) fs f :
  file_truthy f = true ->
  post self fs (Some f)
  = (delete (tmp_path_of f) fs,
     match try_block self (save_upload fs f) (tmp_path_of f) with
     | OK emotion_label => prediction_response emotion_label
     | Raise e => error_response (str e)
     end).
Proof.
  intros Htrue. unfold post. rewrite Htrue. simpl. rewrite cleanup_saved.
  by destruct (try_block _ _ _).
Qed.

(** The averaged coefficients form a one-dimensional array of 40 entries. *)
Lemma mean_mfcc_shape fs (path : string) (v : ndarray sample) :
  mean_mfcc fs path = OK v -> shape v = [40%nat] /\ length (data v) = 40%nat.
Proof.
  unfold mean_mfcc. destruct (load_audio fs path) as [[y sr]|e]; cbn; [|done].
  destruct (librosa_feature_mfcc y sr 40) as [m|e] eqn:Hm; cbn; [|done].
  intros [= <-]. apply librosa_mfcc_shape in Hm as [Hrows _]. simpl.
  by rewrite length_map, length_seq, Hrows.
Qed.

(** With the axis check of NumPy 1.18 the first reshape raises. *)
Lemma extract_axis_error fs (path : string) (v : ndarray sample) :
  numpy_legacy_axis = false -> mean_mfcc fs path = OK v ->
  extract fs path = Raise (axis_error 2 2).
Proof.
  intros Hstrict Hv. unfold extract. rewrite Hv. cbn.
  destruct (mean_mfcc_shape _ _ _ Hv) as [Hshape _].
  unfold np_expand_dims. by rewrite Hshape, Hstrict.
Qed.

(** With the lenient axis handling of NumPy before 1.18 the two reshapes
    give a tensor of shape (1, 40, 1) over the same 40 numbers. *)
Lemma extract_legacy_shape fs (path : string) (v : ndarray sample) :
  numpy_legacy_axis = true -> mean_mfcc fs path = OK v ->
  extract fs path = OK {| shape := [1; 40; 1]%nat; data := data v |}.
Proof.
  intros Hlegacy Hv. unfold extract. rewrite Hv. cbn.
  destruct (mean_mfcc_shape _ _ _ Hv) as [Hshape _].
  unfold np_expand_dims. by rewrite Hshape, Hlegacy.
Qed.

(** The reshape the view is after, [axis=1] (or [-1]), is accepted by
    every NumPy. *)
Lemma expand_dims_last_axis (legacy_axis : bool) (v : ndarray sample) :
  shape v = [40%nat] ->
  np_expand_dims legacy_axis v 1
  = OK {| shape := [40; 1]%nat; data := data v |}.
Proof. intros Hshape. unfold np_expand_dims. by rewrite Hshape. Qed.

(** C2. With NumPy 1.18 or later, for an upload that decodes and whose
    coefficient matrix is computed, the averaged vector has exactly 40
    entries, but [np.expand_dims(mfccs, axis=2)] raises on it: no tensor
    of shape (1, 40, 1) is built, the model is not called, and the request
    is answered with the error response. *)
Theorem reshape_raises_axis_error (self : Predict) fs f (v : ndarray sample) :
  numpy_legacy_axis = false ->
  file_truthy f = true ->
  mean_mfcc (save_upload fs f) (tmp_path_of f) = OK v ->
  length (data v) = 40%nat
  /\ extract (save_upload fs f) (tmp_path_of f)
     = Raise (axis_error 2 2)
  /\ snd (post self fs (Some f))
     = error_response "axis 2 is out of bounds for array of dimension 2".
Proof.
  intros Hstrict Htrue Hv.
  pose proof (extract_axis_error _ _ _ Hstrict Hv) as Hextract.
  split; [by apply (mean_mfcc_shape _ _ _ Hv)|]. split; [done|].
  rewrite post_with_file by done. unfold try_block. by rewrite Hextract.
Qed.

(** X15. What is decoded is what was uploaded: two uploads with the same
    name and the same bytes, however chunked, saved into any two states of
    the file store, even one holding a file of that name, give the same
    averaged coefficients and the same extraction outcome; the averaged
    vector, when there is one, has 40 entries. *)
Theorem extraction_ignores_prior_store fs1 fs2 (f1 f2 : UploadedFile) :
  name f1 = name f2 ->
  upload_bytes f1 = upload_bytes f2 ->
  extract (save_upload fs1 f1) (tmp_path_of f1)
  = extract (save_upload fs2 f2) (tmp_path_of f2)
  /\ mean_mfcc (save_upload fs1 f1) (tmp_path_of f1)
     = mean_mfcc (save_upload fs2 f2) (tmp_path_of f2)
  /\ match mean_mfcc (save_upload fs1 f1) (tmp_path_of f1) with
     | OK v => shape v = [40%nat] /\ length (data v) = 40%nat
     | Raise _ => True
     end.
Proof.
  intros Hname Hbytes.
  assert (mean_mfcc (save_upload fs1 f1) (tmp_path_of f1)
          = mean_mfcc (save_upload fs2 f2) (tmp_path_of f2)) as Hmean.
  { unfold mean_mfcc. rewrite !load_audio_saved.
    unfold tmp_path_of. by rewrite Hname, Hbytes. }
  split; [unfold extract; by rewrite Hmean|]. split; [done|].
  destruct (mean_mfcc (save_upload fs1 f1) _) as [v|e] eqn:Hv; [|done].
  by apply (mean_mfcc_shape _ _ _ Hv).
Qed.



End Pipeline.

(** ** Failures *)

Section Failures.
Context {E : Env}.
Implicit Types (fs : gmap string (list Byte.byte)) (f : UploadedFile).

(** A failure of one of the three kinds is an exception of the [try]
    block. *)
Lemma failure_kind_raises (self : Predict) fs (path : string)
    (kind : error_kind) (e : exn) :
  failure_kind self fs path = Some (kind, e) ->
  try_block self fs path = Raise e.
Proof.
  unfold failure_kind, try_block, extract, mean_mfcc.
  destruct (load_audio fs path) as [[y sr]|e0]; cbn; [|congruence].
  destruct (librosa_feature_mfcc y sr 40) as [m|e0]; cbn.
  - destruct (np_expand_dims _ _ 2) as [x1|e1]; cbn; [|done].
    destruct (np_expand_dims _ x1 0) as [x2|e2]; cbn; [|done].
    unfold predict_label.
    destruct (model_predict (model self) x2) as [preds|e3]; cbn; [done|].
    congruence.
  - destruct (length y =? 0)%nat; congruence.
Qed.

(** Any exception of the [try] block is answered the same way. *)
Lemma post_catches (self : Predict) fs f (e : exn) :
  file_truthy f = true ->
  try_block self (save_upload fs f) (tmp_path_of f) = Raise e ->
  post self fs (Some f) = (delete (tmp_path_of f) fs, error_response (str e)).
Proof. intros Htrue Hraise. rewrite post_with_file by done. by rewrite Hraise. Qed.

(** C5, as amended. For an upload of zero bytes the decoder raises, and
    for one that decodes to no samples and is refused by the feature
    extractor that refusal is raised; either exception is caught and the
    request is answered with the error response carrying its message. *)
Theorem empty_input_error_response (self : Predict) fs f :
  file_truthy f = true ->
  upload_bytes f = []
  \/ (exists sr e0,
        load_audio (save_upload fs f) (tmp_path_of f) = OK ([], sr)
        /\ librosa_feature_mfcc [] sr 40 = Raise e0) ->
  exists kind e,
    (kind = DecodeError \/ kind = EmptySignalError)
    /\ failure_kind self (save_upload fs f) (tmp_path_of f) = Some (kind, e)
    /\ snd (post self fs (Some f)) = error_response (str e).
Proof.
  intros Htrue [Hempty | (sr & e0 & Hload & Hmfcc)].
  - pose proof (librosa_load_empty (tmp_path_of f) None) as Hfail.
    pose proof (load_audio_saved fs f) as Hsaved. rewrite Hempty in Hsaved.
    destruct (librosa_load (tmp_path_of f) [] None) as [?|e] eqn:Hload;
      [discriminate|].
    assert (failure_kind self (save_upload fs f) (tmp_path_of f)
            = Some (DecodeError, e)) as Hkind.
    { unfold failure_kind. by rewrite Hsaved. }
    exists DecodeError, e. split; [by left|]. split; [done|].
    apply failure_kind_raises in Hkind. by rewrite (post_catches _ _ _ e).
  - assert (failure_kind self (save_upload fs f) (tmp_path_of f)
            = Some (EmptySignalError, e0)) as Hkind.
    { unfold failure_kind. by rewrite Hload, Hmfcc. }
    exists EmptySignalError, e0. split; [by right|]. split; [done|].
    apply failure_kind_raises in Hkind. by rewrite (post_catches _ _ _ e0).
Qed.

(** C8, as amended. Whatever the kind of the failure, decode,
    empty-signal or inference, the response is the error response with the
    message of the exception and status 400, in the client-error class. *)
Theorem failure_status_is_400 (self : Predict) fs f
    (kind : error_kind) (e : exn) :
  file_truthy f = true ->
  failure_kind self (save_upload fs f) (tmp_path_of f) = Some (kind, e) ->
  snd (post self fs (Some f)) = error_response (str e)
  /\ status (snd (post self fs (Some f))) = 400
  /\ is_client_error (status (snd (post self fs (Some f)))) = true.
Proof.
  intros Htrue Hkind. apply failure_kind_raises in Hkind.
  by rewrite (post_catches _ _ _ e).
Qed.







(** Without faults before the [try] statement, [handle] is [as_view]. *)
Lemma handle_without_faults (p : process) (audio_file : option UploadedFile) :
  handle (fun _ => None) p audio_file = as_view p audio_file.
Proof.
  unfold handle, as_view, construct, post_or_fault.
  destruct (Predict_init (files p)) as [self|e]; [|done]. simpl.
  destruct audio_file as [f|].
  - destruct (file_truthy f); by destruct (post self (files p) (Some f)).
  - by destruct (post self (files p) None).
Qed.

End Failures.

(** ** The properties on concrete requests *)

(** NumPy 1.18 or later. *)
Section OnCurrent.
#[local] Existing Instance Toy.current.

Lemma reshape_raises_axis_error_witness :
  length (data Toy.clip_mean) = 40%nat
  /\ extract (save_upload (Toy.disk [Byte.x01]) Toy.clip) (tmp_path_of Toy.clip)
     = Raise (axis_error 2 2)
  /\ snd (post Toy.good (Toy.disk [Byte.x01]) (Some Toy.clip))
     = error_response "axis 2 is out of bounds for array of dimension 2".
Proof.
  apply (reshape_raises_axis_error Toy.good
           (Toy.disk [Byte.x01]) Toy.clip Toy.clip_mean).
  - reflexivity.
  - reflexivity.
  - vm_compute. reflexivity.
Defined.


(** C5, the sentence as stated fails: a header-only recording decodes to
    no samples, the feature extractor pads it and returns coefficients,
    and the exception that ends the request is the axis error of the
    reshape, neither a decode nor an empty-signal error. *)
Lemma empty_input_claim_fails : ~ empty_input_claim.
Proof.
  intros Hclaim.
  destruct (Hclaim Toy.current Toy.good ∅ Toy.header_only)
    as (kind & e & _ & Hkind & _).
  - reflexivity.
  - right. exists 8000. vm_compute. reflexivity.
  - vm_compute in Hkind. discriminate.
Qed.

Example header_only_response :
  post Toy.good ∅ (Some Toy.header_only)
  = (∅, error_response "axis 2 is out of bounds for array of dimension 2").
Proof. vm_compute. reflexivity. Qed.

Lemma empty_input_error_response_witness :
  exists kind e,
    (kind = DecodeError \/ kind = EmptySignalError)
    /\ failure_kind Toy.good (save_upload ∅ Toy.empty_file)
         (tmp_path_of Toy.empty_file) = Some (kind, e)
    /\ snd (post Toy.good ∅ (Some Toy.empty_file)) = error_response (str e).
Proof.
  apply (empty_input_error_response Toy.good ∅ Toy.empty_file).
  - reflexivity.
  - left. reflexivity.
Defined.

Example empty_file_response :
  post Toy.good ∅ (Some Toy.empty_file)
  = (∅, error_response "Format not recognised").
Proof. vm_compute. reflexivity. Qed.


Example shipped_requests_raise :
  @serve Toy.shipped (Toy.fresh [Byte.x01]) [Some Toy.clip; Some Toy.clip]
  = ({| files := Toy.disk [Byte.x01]; load_trace := [false; false] |},
     [Raise (Exn NameError "name 'load_model' is not defined");
      Raise (Exn NameError "name 'load_model' is not defined")]).
Proof. vm_compute. reflexivity. Qed.

(** A failed load is not final: once the artifact is there, the request of
    a process whose earlier load failed is answered. *)
Example request_after_failed_load :
  as_view {| files := Toy.disk [Byte.x01]; load_trace := [false] |} None
  = ({| files := Toy.disk [Byte.x01]; load_trace := [false; true] |},
     OK (error_response "No audio file provided")).
Proof. vm_compute. reflexivity. Qed.


(** The same with the import in place and no artifact in the store. *)
Example no_artifact_no_response :
  snd (as_view Toy.no_artifact (Some Toy.clip))
  = Raise (Exn FileNotFoundError "No file or directory found").
Proof. vm_compute. reflexivity. Qed.

Example loads_of_two_requests :
  load_trace (fst (serve (Toy.fresh [Byte.x01]) [Some Toy.clip; Some Toy.clip]))
  = [true; true].
Proof. vm_compute. reflexivity. Qed.

(** Without an artifact every request attempts the load again. *)
Example failed_load_is_retried :
  serve Toy.no_artifact [Some Toy.clip; Some Toy.clip]
  = ({| files := ∅; load_trace := [false; false] |},
     [Raise (Exn FileNotFoundError "No file or directory found");
      Raise (Exn FileNotFoundError "No file or directory found")]).
Proof. vm_compute. reflexivity. Qed.
End OnCurrent.

(** NumPy before 1.18 with a feature extractor that refuses an empty
    signal: the refusal is what answers a header-only recording. *)
Section OnLegacyStrictMfcc.
#[local] Existing Instance Toy.legacy_strict_mfcc.

Example header_only_is_refused :
  post (Build_Predict Toy.GoodModel) ∅ (Some Toy.header_only)
  = (∅, error_response
          "can't extend empty axis 0 using modes other than 'constant' or 'empty'").
Proof. vm_compute. reflexivity. Qed.
End OnLegacyStrictMfcc.

(** NumPy before 1.18. *)
Section OnLegacy.
#[local] Existing Instance Toy.legacy.

(** The request that fails above reaches the model and is labelled. *)
Example legacy_request_is_labelled :
  snd (post Toy.good_legacy (Toy.disk [Byte.x01]) (Some Toy.clip))
  = prediction_response "happy".
Proof. vm_compute. reflexivity. Qed.

Example legacy_extract_shape :
  extract (save_upload ∅ Toy.clip) (tmp_path_of Toy.clip)
  = OK {| shape := [1; 40; 1]%nat; data := data Toy.clip_mean |}.
Proof. vm_compute. reflexivity. Qed.

(** A header-only recording is labelled as well. *)
Example header_only_is_labelled :
  snd (post Toy.good_legacy (Toy.disk [Byte.x01]) (Some Toy.header_only))
  = prediction_response "happy".
Proof. vm_compute. reflexivity. Qed.

(** A classifier with ten outputs can select a class without a label. *)
Example wide_model_is_unknown :
  snd (post Toy.wide_legacy (Toy.disk [Byte.x02]) (Some Toy.clip))
  = prediction_response "unknown".
Proof. vm_compute. reflexivity. Qed.

(** The temporary copy takes the place of a stored file of the same name,
    which is then removed with it. *)
Example stored_file_of_same_name_is_removed :
  fst (post Toy.good_legacy {[ "/srv/media/clip.wav" := [Byte.x41] ]}
         (Some Toy.clip))
  = ∅.
Proof. vm_compute. reflexivity. Qed.

(** C8, the sentence as stated fails: a failing forward pass is an
    inference error, and it is answered with status 400. *)
Lemma status_by_kind_claim_fails : ~ status_by_kind_claim.
Proof.
  intros Hclaim.
  pose proof (Hclaim Toy.legacy Toy.broken_legacy (Toy.disk [Byte.x03]) Toy.clip
                InferenceError (Exn LibraryError "forward pass failed")
                eq_refl) as Hstatus.
  assert (spec_status_class InferenceError
            (status (snd (post Toy.broken_legacy (Toy.disk [Byte.x03])
                            (Some Toy.clip)))) = false) as Hcode
    by (vm_compute; reflexivity).
  rewrite Hstatus in Hcode; [discriminate|]. vm_compute. reflexivity.
Qed.

Lemma failure_status_is_400_witness :
  snd (post Toy.broken_legacy (Toy.disk [Byte.x03]) (Some Toy.clip))
  = error_response "forward pass failed"
  /\ status (snd (post Toy.broken_legacy (Toy.disk [Byte.x03]) (Some Toy.clip)))
     = 400
  /\ is_client_error
       (status (snd (post Toy.broken_legacy (Toy.disk [Byte.x03]) (Some Toy.clip))))
     = true.
Proof.
  apply (failure_status_is_400 Toy.broken_legacy (Toy.disk [Byte.x03]) Toy.clip
           InferenceError (Exn LibraryError "forward pass failed")).
  - reflexivity.
  - vm_compute. reflexivity.
Defined.
End OnLegacy.

(** * Further properties of the views *)

(** ** Strings *)

Lemma list_ascii_of_string_app (s1 s2 : string) :
  String.list_ascii_of_string (s1 +:+ s2)
  = String.list_ascii_of_string s1 ++ String.list_ascii_of_string s2.
Proof. induction s1 as [|c s1 IH]; simpl; [done | by rewrite IH]. Qed.

Lemma length_list_ascii_of_string (s : string) :
  length (String.list_ascii_of_string s) = String.length s.
Proof. induction s as [|c s IH]; simpl; [done | by rewrite IH]. Qed.

Lemma string_length_app (s1 s2 : string) :
  String.length (s1 +:+ s2) = (String.length s1 + String.length s2)%nat.
Proof. induction s1 as [|c s1 IH]; simpl; [done | by rewrite IH]. Qed.

(** A character that does not occur in [s1] is found in [s1 +:+ s2] where it
    is found in [s2]. *)
Lemma find_char_app (c : Ascii.ascii) (s1 s2 : string) : forall i : nat,
  find_from (String c "") s1 i = -1 ->
  find_from (String c "") (s1 +:+ s2) i
  = find_from (String c "") s2 (i + String.length s1).
Proof.
  induction s1 as [|a s1 IH]; intros i Hnone.
  - simpl. by rewrite Nat.add_0_r.
  - simpl in *. destruct (Ascii.ascii_dec c a) as [->|Hne].
    + destruct s1; simpl in Hnone; lia.
    + rewrite IH by done. f_equal. lia.
Qed.

Lemma find_char_head (c : Ascii.ascii) (s : string) (i : nat) :
  find_from (String c "") (String c s) i = Z.of_nat i.
Proof.
  simpl. destruct (Ascii.ascii_dec c c); [|done]. by destruct s.
Qed.

Lemma find_char_cons_same (c : Ascii.ascii) (rest : string) (i : nat) :
  find_from (String c "") (String c "" +:+ rest) i = Z.of_nat i.
Proof. apply find_char_head. Qed.

Lemma find_char_cons_other (c a : Ascii.ascii) (rest : string) (i : nat) :
  String c "" <> String a "" ->
  find_from (String c "") (String a "" +:+ rest) i
  = find_from (String c "") rest (S i).
Proof.
  intros Hne. change (String a "" +:+ rest) with (String a rest). simpl.
  destruct (Ascii.ascii_dec c a) as [->|]; [done | done].
Qed.

Lemma find_char_shift (c : Ascii.ascii) (s : string) : forall i j : nat,
  find_from (String c "") s i = -1 -> find_from (String c "") s j = -1.
Proof.
  induction s as [|a s IH]; intros i j Hi; [done|].
  simpl in *. destruct (Ascii.ascii_dec c a) as [->|Hne].
  - destruct s; simpl in Hi; lia.
  - eauto.
Qed.

Lemma string_app_assoc (s1 s2 s3 : string) :
  (s1 +:+ s2) +:+ s3 = s1 +:+ s2 +:+ s3.
Proof.
  induction s1 as [|c s1 IH]; [done|].
  change (String c ((s1 +:+ s2) +:+ s3) = String c (s1 +:+ s2 +:+ s3)).
  by rewrite IH.
Qed.

(** The slice that starts after [a] and spans the length of [k] is [k]. *)
Lemma py_slice_middle (a k b : string) :
  py_slice (a +:+ k +:+ b)
    (Z.of_nat (String.length a))
    (Z.of_nat (String.length a + String.length k)) = k.
Proof.
  unfold py_slice, py_slice_bound.
  rewrite !list_ascii_of_string_app, !length_app, !length_list_ascii_of_string.
  destruct (Z.ltb_spec (Z.of_nat (String.length a)) 0); [lia|].
  destruct (Z.ltb_spec (Z.of_nat (String.length a + String.length k)) 0); [lia|].
  rewrite !Nat2Z.id.
  replace (Nat.min _ (String.length a)) with (String.length a) by lia.
  replace (Nat.min _ (String.length a + String.length k))
    with (String.length a + String.length k)%nat by lia.
  rewrite drop_app_length' by (by rewrite length_list_ascii_of_string).
  replace (String.length a + String.length k - String.length a)%nat
    with (String.length k) by lia.
  rewrite take_app_length' by (by rewrite length_list_ascii_of_string).
  apply String.string_of_list_ascii_of_string.
Qed.

(** ** [FileDeleteView.post]: the posted primary key *)

(** X1. When the posted text has an opening bracket, with no bracket before it,
    and a closing bracket after it, the primary key is exactly the text
    between the two: the rendering of a query set with one key gives that
    key back. *)
Theorem primary_key_between_brackets (pre key post : string) :
  py_find pre "[" = -1 -> py_find pre "]" = -1 -> py_find key "]" = -1 ->
  primary_key_of (pre +:+ "[" +:+ key +:+ "]" +:+ post) = key.
Proof.
  unfold primary_key_of, py_find. intros Hpre_open Hpre_close Hkey.
  rewrite (find_char_app _ pre _ 0 Hpre_open).
  rewrite (find_char_app _ pre _ 0 Hpre_close).
  rewrite find_char_cons_same.
  rewrite find_char_cons_other by discriminate.
  rewrite (find_char_app _ key _ _ (find_char_shift _ _ _ _ Hkey)).
  rewrite find_char_cons_same.
  rewrite <- (string_app_assoc pre "[").
  replace (Z.of_nat (0 + String.length pre) + 1)
    with (Z.of_nat (String.length (pre +:+ "[")))
    by (rewrite string_length_app; simpl; lia).
  replace (S (0 + String.length pre) + String.length key)%nat
    with (String.length (pre +:+ "[") + String.length key)%nat
    by (rewrite string_length_app; simpl; lia).
  apply py_slice_middle.
Qed.

Lemma primary_key_between_brackets_witness :
  primary_key_of ("<QuerySet " +:+ "[" +:+ "12" +:+ "]" +:+ ">") = "12".
Proof.
  apply (primary_key_between_brackets "<QuerySet " "12" ">"); reflexivity.
Defined.

(** X2. When the posted text has no bracket at all, both searches give -1 and
    the slice is [identifier[0:-1]]: the primary key is the text without its
    last character. *)
Theorem primary_key_without_brackets (s : string) (c : Ascii.ascii) :
  py_find (s +:+ String c "") "[" = -1 ->
  py_find (s +:+ String c "") "]" = -1 ->
  primary_key_of (s +:+ String c "") = s.
Proof.
  unfold primary_key_of. intros -> ->. unfold py_slice.
  rewrite list_ascii_of_string_app, length_app, length_list_ascii_of_string.
  simpl length.
  assert (forall n : nat, py_slice_bound n (-1 + 1) = 0%nat) as Hlo
    by (intros n; unfold py_slice_bound; simpl; lia).
  assert (forall n : nat, py_slice_bound (n + 1) (-1) = n) as Hhi
    by (intros n; unfold py_slice_bound; simpl; lia).
  rewrite Hlo, Hhi, drop_0, Nat.sub_0_r.
  rewrite take_app_length' by (by rewrite length_list_ascii_of_string).
  apply String.string_of_list_ascii_of_string.
Qed.

Lemma primary_key_without_brackets_witness :
  primary_key_of ("1" +:+ "2") = "1".
Proof.
  apply (primary_key_without_brackets "1" (Ascii.ascii_of_nat 50)); reflexivity.
Defined.

(** ** The label table, once more *)

(** X5. Distinct classes have distinct labels: on 0..7 the label tells the
    class. *)
Theorem classtoemotion_injective (i j : Z) :
  0 <= i <= 7 -> 0 <= j <= 7 ->
  classtoemotion i = classtoemotion j -> i = j.
Proof.
  intros Hi Hj. apply index_cases in Hi. apply index_cases in Hj.
  destruct Hi as [->|[->|[->|[->|[->|[->|[->| ->]]]]]]];
    destruct Hj as [->|[->|[->|[->|[->|[->|[->| ->]]]]]]];
    vm_compute; intros Heq; first [reflexivity | discriminate Heq].
Qed.

Lemma classtoemotion_injective_witness : 2 = 2.
Proof.
  apply (classtoemotion_injective 2 2); [lia | lia | reflexivity].
Defined.

(** ** Paths *)

Lemma string_length_nonempty (s : string) :
  s <> "" -> String.length s <> 0%nat.
Proof. by destruct s. Qed.

Section Paths.
Context {E : Env}.

(** X3. [check_file_exists] answers [True] for every file name that is not the
    empty string: it tests the path text, which is never empty, and does not
    look at the file store. *)
Theorem check_file_exists_true (file_name : string) :
  file_name <> "" -> check_file_exists file_name = true.
Proof.
  intros Hname. apply string_length_nonempty in Hname.
  unfold check_file_exists, os_path_join.
  destruct (String.prefix "/" file_name).
  - by destruct (Nat.eqb_spec (String.length file_name) 0).
  - destruct (_ || _); rewrite ?string_length_app;
      match goal with |- negb (?n =? 0)%nat = true =>
        destruct (Nat.eqb_spec n 0); [lia | done] end.
Qed.

(** X4. Uploads whose names do not start with a slash and differ are saved
    under different temporary paths. *)
Theorem tmp_path_injective (f1 f2 : UploadedFile) :
  String.prefix "/" (name f1) = false ->
  String.prefix "/" (name f2) = false ->
  tmp_path_of f1 = tmp_path_of f2 -> name f1 = name f2.
Proof.
  unfold tmp_path_of, os_path_join. intros -> ->.
  destruct (_ || _); intros Heq.
  - by apply (inj (String.append MEDIA_ROOT)) in Heq.
  - apply (inj (String.append MEDIA_ROOT)) in Heq.
    by apply (inj (String.append "/")) in Heq.
Qed.
End Paths.

Lemma check_file_exists_true_witness :
  (∅ : gmap string (list Byte.byte))
    !! os_path_join (@MEDIA_ROOT Toy.current) "missing.wav" = None
  /\ @check_file_exists Toy.current "missing.wav" = true.
Proof.
  split; [reflexivity|].
  apply (@check_file_exists_true Toy.current "missing.wav"). discriminate.
Defined.

Lemma tmp_path_injective_witness :
  name Toy.clip = name Toy.clip_one_chunk.
Proof.
  apply (@tmp_path_injective Toy.current Toy.clip Toy.clip_one_chunk);
    reflexivity.
Defined.

(** ** [Predict.post] and the process, once more *)

Section MorePipeline.
Context {E : Env}.
Implicit Types (fs : gmap string (list Byte.byte)) (f : UploadedFile).

(** X6. A request is answered with status 200 exactly when it carries a file
    with a name and every statement of the [try] block went through. *)
Theorem post_status_200_iff (self : Predict) fs (audio_file : option UploadedFile) :
  status (snd (post self fs audio_file)) = 200
  <-> exists f label,
        audio_file = Some f /\ file_truthy f = true
        /\ try_block self (save_upload fs f) (tmp_path_of f) = OK label.
Proof.
  split.
  - destruct audio_file as [f|]; [|discriminate].
    destruct (file_truthy f) eqn:Htrue.
    + rewrite post_with_file by done. simpl.
      destruct (try_block _ _ _) as [label|e] eqn:Htry; [|discriminate].
      intros _. by exists f, label.
    + unfold post. rewrite Htrue. discriminate.
  - intros (f & label & -> & Htrue & Htry).
    rewrite post_with_file by done. simpl. by rewrite Htry.
Qed.

(** X7. With the axis check of NumPy 1.18 no request at all is answered with a
    prediction: every response is an error response with status 400. *)
Theorem strict_numpy_never_predicts (self : Predict) fs
    (audio_file : option UploadedFile) :
  numpy_legacy_axis = false ->
  exists message : string,
    snd (post self fs audio_file) = error_response message.
Proof.
  intros Hstrict. destruct audio_file as [f|]; [|by eexists].
  destruct (file_truthy f) eqn:Htrue.
  - rewrite post_with_file by done. simpl. unfold try_block.
    destruct (mean_mfcc (save_upload fs f) (tmp_path_of f)) as [v|e] eqn:Hv.
    + rewrite (extract_axis_error _ _ _ Hstrict Hv). by eexists.
    + unfold extract. rewrite Hv. by eexists.
  - unfold post. rewrite Htrue. by eexists.
Qed.

(** Scores of width 8 are labelled from the table. *)
Lemma predict_label_width8 (self : Predict) (features preds : ndarray sample)
    (b : nat) :
  model_predict (model self) features = OK preds ->
  shape preds = [b; 8%nat] -> b <> 0%nat ->
  exists label : string,
    predict_label self features = OK label /\ label ∈ emotion_labels.
Proof.
  intros Hpreds Hshape Hb.
  pose proof (model_predict_wf _ _ _ Hpreds) as Hwf.
  destruct (np_argmax_axis1_item0_bound preds b 8 Hwf Hshape Hb)
    as (k & Hk & Hlt); [lia|].
  exists (classtoemotion (Z.of_nat k)).
  unfold predict_label. rewrite Hpreds. cbn. rewrite Hk. cbn.
  split; [done|]. apply classtoemotion_inside. lia.
Qed.

(** X8. With the lenient axis handling, an upload that decodes is handed to the
    model as a tensor of shape (1, 40, 1) holding the 40 averaged
    coefficients, and when the model returns scores of width 8 the request
    is answered with status 200 and one of the eight labels, the temporary
    file being removed. *)
Theorem legacy_numpy_predicts (self : Predict) fs f
    (v preds : ndarray sample) (b : nat) :
  numpy_legacy_axis = true ->
  file_truthy f = true ->
  mean_mfcc (save_upload fs f) (tmp_path_of f) = OK v ->
  model_predict (model self) {| shape := [1; 40; 1]%nat; data := data v |}
    = OK preds ->
  shape preds = [b; 8%nat] -> b <> 0%nat ->
  exists label : string,
    label ∈ emotion_labels
    /\ post self fs (Some f)
       = (delete (tmp_path_of f) fs, prediction_response label).
Proof.
  intros Hlegacy Htrue Hv Hpreds Hshape Hb.
  destruct (predict_label_width8 self _ preds b Hpreds Hshape Hb)
    as (label & Hlabel & Hin).
  exists label. split; [done|].
  rewrite post_with_file by done. unfold try_block.
  rewrite (extract_legacy_shape _ _ _ Hlegacy Hv). cbn. by rewrite Hlabel.
Qed.



End MorePipeline.

(** ** The array operations, once more *)

Section MoreNumpy.
Context {F : Type} `{!Scalar F}.

Lemma nth_flat_map_block (f : nat -> list F) (k : nat) (d : F) :
  (forall x, length (f x) = k) ->
  forall n start a b : nat,
    (a < n)%nat -> (b < k)%nat ->
    nth (a * k + b) (flat_map f (seq start n)) d = nth b (f (start + a)%nat) d.
Proof.
  intros Hlen. induction n as [|n IH]; intros start a b Ha Hb; [lia|].
  simpl. destruct a as [|a].
  - rewrite app_nth1 by (rewrite Hlen; lia). by rewrite Nat.add_0_r.
  - rewrite app_nth2 by (rewrite Hlen; lia). rewrite Hlen.
    replace (S a * k + b - k)%nat with (a * k + b)%nat by lia.
    rewrite IH by lia. f_equal. f_equal. lia.
Qed.

Lemma nth_map_seq (g : nat -> F) (n j : nat) (d : F) :
  (j < n)%nat -> nth j (map g (seq 0 n)) d = g j.
Proof.
  intros Hj. rewrite (nth_indep _ d (g 0%nat)) by (by rewrite length_map, length_seq).
  by rewrite map_nth, seq_nth.
Qed.

(** An element of the transposed matrix is the mirrored element of the
    matrix. *)
Lemma mget_np_T (m : matrix F) (i j : nat) :
  (i < ncols m)%nat -> (j < nrows m)%nat -> mget (np_T m) i j = mget m j i.
Proof.
  intros Hi Hj. unfold mget at 1, np_T. simpl.
  rewrite (nth_flat_map_block _ (nrows m)); [| |done|done].
  - by rewrite nth_map_seq.
  - intros x. by rewrite length_map, length_seq.
Qed.

(** X11. Line 235, [np.mean(coeffs.T, axis=0)]: entry [j] of the result is the
    sum of row [j] of the coefficient matrix, over its columns in order,
    divided by the number of columns, that is the average of coefficient
    [j] over the frames. *)
Theorem mean_of_transpose_is_row_mean (m : matrix F) :
  np_mean_axis0 (np_T m)
  = {| shape := [nrows m];
       data := map (fun j =>
                 fdiv_count
                   (fold_left fadd (map (fun i => mget m j i) (seq 0 (ncols m))) fzero)
                   (ncols m))
               (seq 0 (nrows m)) |}.
Proof.
  unfold np_mean_axis0. simpl. f_equal.
  apply map_ext_in. intros j Hj. apply in_seq in Hj. f_equal. f_equal.
  apply map_ext_in. intros i Hi. apply in_seq in Hi.
  apply mget_np_T; lia.
Qed.

Lemma size_of_app (s1 s2 : list nat) :
  size_of (s1 ++ s2) = (size_of s1 * size_of s2)%nat.
Proof.
  induction s1 as [|x s1 IH]; simpl; [lia|].
  unfold size_of in *. simpl. rewrite IH. lia.
Qed.

Lemma size_of_insert_unit_axis (s : list nat) (i : Z) :
  size_of (insert_unit_axis s i) = size_of s
  /\ length (insert_unit_axis s i) = S (length s).
Proof.
  unfold insert_unit_axis. split.
  - transitivity (size_of (take (py_slice_bound (length s) i) s
                           ++ drop (py_slice_bound (length s) i) s));
      [|by rewrite take_drop].
    rewrite !size_of_app. unfold size_of. simpl. lia.
  - rewrite length_app. simpl. rewrite length_take, length_drop. lia.
Qed.

(** X12. Lines 236-237: whenever [np.expand_dims] returns, under either NumPy,
    the result has the same elements in the same order, one axis more, and
    the same number of elements its shape announces; a well-formed array
    stays well-formed. *)
Theorem np_expand_dims_keeps_elements (legacy_axis : bool) (a a' : ndarray F)
    (axis : Z) :
  np_expand_dims legacy_axis a axis = OK a' ->
  data a' = data a
  /\ length (shape a') = S (length (shape a))
  /\ size_of (shape a') = size_of (shape a)
  /\ (wf_ndarray a -> wf_ndarray a').
Proof.
  unfold np_expand_dims, wf_ndarray.
  destruct (_ || _); [destruct legacy_axis; [|discriminate]|];
    intros [= <-]; simpl;
    match goal with |- context [insert_unit_axis ?s ?i] =>
      destruct (size_of_insert_unit_axis s i) as [-> ->] end; done.
Qed.

(** X13. Line 239 on a row with a NaN: when comparisons with NaN are false, as
    they are for floating-point numbers, the class selected is the position
    of the first NaN, whatever the other scores. *)
Theorem argmax_first_nan (pre post : list F) (x : F) :
  (forall a b : F, fisnan a = true -> fle a b = false) ->
  Forall (fun y => fisnan y = false) pre ->
  fisnan x = true ->
  np_argmax_row (pre ++ x :: post) = Some (length pre).
Proof.
  intros Hcmp Hpre Hx.
  assert (forall l, Forall (fun y => fisnan y = false) l ->
            forall mp best i,
              argmax_scan mp best i (l ++ x :: post) = (i + length l)%nat) as Hscan.
  { induction l as [|y l IH]; intros Hl mp best i; simpl.
    - rewrite (Hcmp x mp Hx), Hx. lia.
    - inversion Hl as [|? ? Hy Hl']; subst.
      destruct (fle y mp); [|rewrite Hy]; rewrite IH by done; lia. }
  destruct pre as [|p0 pre]; simpl; [by rewrite Hx|].
  inversion Hpre as [|? ? Hp0 Hpre']; subst.
  rewrite Hp0, Hscan by done. f_equal.
Qed.

(** X14. Line 239: on a well-formed array of scores, [np.argmax(preds, axis=1)[0]]
    is a class index exactly when the array has two axes, at least one row
    and at least one column; for every other shape it raises or is not an
    integer. *)
Theorem class_index_iff_matrix (preds : ndarray F) :
  wf_ndarray preds ->
  (exists k : Z, np_argmax_axis1_item0 preds = OK (Index k))
  <-> (exists b w : nat, shape preds = [b; w] /\ b <> 0%nat /\ w <> 0%nat).
Proof.
  intros Hwf. split.
  - intros [k Hk]. unfold np_argmax_axis1_item0 in Hk.
    destruct (shape preds) as [|b [|w rest]]; try discriminate.
    destruct (Nat.eqb_spec w 0); [discriminate|].
    destruct (Nat.eqb_spec b 0); [discriminate|].
    destruct rest; [|discriminate]. by exists b, w.
  - intros (b & w & Hshape & Hb & Hw).
    destruct (np_argmax_axis1_item0_bound preds b w Hwf Hshape Hb Hw)
      as (k & Hk & _).
    by exists (Z.of_nat k).
Qed.
End MoreNumpy.

(** ** The further properties on concrete inputs *)

Section MoreOnCurrent.
#[local] Existing Instance Toy.current.

Lemma strict_numpy_never_predicts_witness :
  exists message : string,
    snd (post Toy.good (Toy.disk [Byte.x01]) (Some Toy.clip))
    = error_response message.
Proof.
  apply (strict_numpy_never_predicts Toy.good (Toy.disk [Byte.x01])
           (Some Toy.clip)).
  reflexivity.
Defined.
End MoreOnCurrent.

Section MoreOnLegacy.
#[local] Existing Instance Toy.legacy.

Lemma extraction_ignores_prior_store_witness :
  extract (save_upload {[ "/srv/media/clip.wav" := [Byte.x41] ]} Toy.clip)
    (tmp_path_of Toy.clip)
  = extract (save_upload ∅ Toy.clip_one_chunk) (tmp_path_of Toy.clip_one_chunk)
  /\ mean_mfcc (save_upload {[ "/srv/media/clip.wav" := [Byte.x41] ]} Toy.clip)
       (tmp_path_of Toy.clip)
     = mean_mfcc (save_upload ∅ Toy.clip_one_chunk) (tmp_path_of Toy.clip_one_chunk)
  /\ match mean_mfcc (save_upload {[ "/srv/media/clip.wav" := [Byte.x41] ]} Toy.clip)
             (tmp_path_of Toy.clip) with
     | OK v => shape v = [40%nat] /\ length (data v) = 40%nat
     | Raise _ => True
     end.
Proof.
  apply (extraction_ignores_prior_store {[ "/srv/media/clip.wav" := [Byte.x41] ]} ∅
           Toy.clip Toy.clip_one_chunk).
  - reflexivity.
  - reflexivity.
Defined.

Lemma legacy_numpy_predicts_witness :
  exists label : string,
    label ∈ emotion_labels
    /\ post Toy.good_legacy (Toy.disk [Byte.x01]) (Some Toy.clip)
       = (delete (tmp_path_of Toy.clip) (Toy.disk [Byte.x01]),
          prediction_response label).
Proof.
  apply (legacy_numpy_predicts Toy.good_legacy (Toy.disk [Byte.x01]) Toy.clip
           Toy.clip_mean {| shape := [1; 8]%nat; data := Toy.scores8 |} 1).
  - reflexivity.
  - reflexivity.
  - vm_compute. reflexivity.
  - reflexivity.
  - reflexivity.
  - lia.
Defined.
End MoreOnLegacy.

Lemma np_expand_dims_keeps_elements_witness :
  data {| shape := [40; 1]%nat; data := data Toy.clip_mean |} = data Toy.clip_mean
  /\ length [40; 1]%nat = S (length (shape Toy.clip_mean))
  /\ size_of [40; 1]%nat = size_of (shape Toy.clip_mean)
  /\ (wf_ndarray Toy.clip_mean ->
      wf_ndarray {| shape := [40; 1]%nat; data := data Toy.clip_mean |}).
Proof.
  apply (np_expand_dims_keeps_elements false Toy.clip_mean
           {| shape := [40; 1]%nat; data := data Toy.clip_mean |} (-1)).
  reflexivity.
Defined.

Lemma argmax_first_nan_witness :
  np_argmax_row ([QNum 1; QNum 3] ++ QNaN :: [QNum 5])%Q = Some 2%nat.
Proof.
  apply (argmax_first_nan [QNum 1; QNum 3]%Q [QNum 5]%Q QNaN).
  - intros [q|] b Hnan; [discriminate Hnan | reflexivity].
  - repeat constructor.
  - reflexivity.
Defined.

Lemma class_index_iff_matrix_witness :
  (exists k : Z,
      np_argmax_axis1_item0 {| shape := [1; 8]%nat; data := Toy.scores8 |}
      = OK (Index k))
  <-> (exists b w : nat, [1; 8]%nat = [b; w] /\ b <> 0%nat /\ w <> 0%nat).
Proof.
  apply (class_index_iff_matrix {| shape := [1; 8]%nat; data := Toy.scores8 |}).
  reflexivity.
Defined.
